(** * click: lazy resolution of the package's public names

    A shallow embedding of [src/click/__init__.py]: the two registry
    tables, the export list [__all__] and the module-level [__getattr__],
    together with the properties of the resolution protocol.

    Python dictionaries are [gmap string _]; the bindings the resolver
    makes in the module namespace are a [gmap string obj], those the
    import system makes there are read off the interpreter state; the
    services of the interpreter that the resolver calls
    ([importlib.import_module], [getattr], [importlib.metadata.version])
    are an interface ([Host]) over an abstract interpreter state; raising
    is the left summand of the outcome; every call that leaves the
    resolver is recorded, in order, in the list of events of the run. *)

From Stdlib Require Import Ascii String.
From stdpp Require Import base option list gmap strings.

Open Scope string_scope.

(** ** Python data *)

(** A dictionary display [{k1: v1, k2: v2, ...}]: the items are inserted
    from left to right, so a later item overwrites an earlier one with the
    same key. *)
Definition dict {V : Type} (items : list (string * V)) : gmap string V :=
  foldl (λ d kv, <[kv.1 := kv.2]> d) ∅ items.

(** The keys of a dictionary display, as written. *)
Definition keys {V : Type} (items : list (string * V)) : list string :=
  items.*1.

(** [needle in haystack] on [str]. *)
Fixpoint contains (needle haystack : string) : bool :=
  String.prefix needle haystack
  || match haystack with
     | EmptyString => false
     | String _ rest => contains needle rest
     end.

(** An exception object: its class and [str()] of it. *)
Record pyexc : Type := PyExc { exc_class : string; exc_str : string }.

(** [AttributeError(name)]; [str(AttributeError(name))] is [name]. *)
Definition AttributeError (name : string) : pyexc :=
  {| exc_class := "AttributeError"; exc_str := name |}.

(** [TypeError(msg)] *)
Definition TypeError (msg : string) : pyexc :=
  {| exc_class := "TypeError"; exc_str := msg |}.

Definition ModuleNotFoundError (name : string) : pyexc :=
  {| exc_class := "ModuleNotFoundError";
     exc_str := "No module named '" +:+ name +:+ "'" |}.

(** Warning categories handed to [warnings.warn]; [UserWarning] is the
    category [warn] uses when none is given. *)
Inductive category : Type := UserWarning | DeprecationWarning.

(** The double quote character, for the one message that has it. *)
Definition dquote : string := String "034"%char "".

(** ** The registry (lines 11-178) *)

(** Lazy import mappings: attribute name -> (module, name in module). *)
Definition _lazy_imports_items : list (string * (string * string)) :=
  [ (* core *)
    ("Argument", (".core", "Argument"));
    ("Command", (".core", "Command"));
    ("CommandCollection", (".core", "CommandCollection"));
    ("Context", (".core", "Context"));
    ("Group", (".core", "Group"));
    ("Option", (".core", "Option"));
    ("Parameter", (".core", "Parameter"));
    (* decorators *)
    ("argument", (".decorators", "argument"));
    ("command", (".decorators", "command"));
    ("confirmation_option", (".decorators", "confirmation_option"));
    ("group", (".decorators", "group"));
    ("help_option", (".decorators", "help_option"));
    ("make_pass_decorator", (".decorators", "make_pass_decorator"));
    ("option", (".decorators", "option"));
    ("pass_context", (".decorators", "pass_context"));
    ("pass_obj", (".decorators", "pass_obj"));
    ("password_option", (".decorators", "password_option"));
    ("version_option", (".decorators", "version_option"));
    (* exceptions *)
    ("Abort", (".exceptions", "Abort"));
    ("BadArgumentUsage", (".exceptions", "BadArgumentUsage"));
    ("BadOptionUsage", (".exceptions", "BadOptionUsage"));
    ("BadParameter", (".exceptions", "BadParameter"));
    ("ClickException", (".exceptions", "ClickException"));
    ("FileError", (".exceptions", "FileError"));
    ("MissingParameter", (".exceptions", "MissingParameter"));
    ("NoSuchOption", (".exceptions", "NoSuchOption"));
    ("UsageError", (".exceptions", "UsageError"));
    (* formatting *)
    ("HelpFormatter", (".formatting", "HelpFormatter"));
    ("wrap_text", (".formatting", "wrap_text"));
    (* globals *)
    ("get_current_context", (".globals", "get_current_context"));
    (* termui *)
    ("clear", (".termui", "clear"));
    ("confirm", (".termui", "confirm"));
    ("echo_via_pager", (".termui", "echo_via_pager"));
    ("edit", (".termui", "edit"));
    ("getchar", (".termui", "getchar"));
    ("launch", (".termui", "launch"));
    ("pause", (".termui", "pause"));
    ("progressbar", (".termui", "progressbar"));
    ("prompt", (".termui", "prompt"));
    ("secho", (".termui", "secho"));
    ("style", (".termui", "style"));
    ("unstyle", (".termui", "unstyle"));
    (* types *)
    ("BOOL", (".types", "BOOL"));
    ("Choice", (".types", "Choice"));
    ("DateTime", (".types", "DateTime"));
    ("File", (".types", "File"));
    ("FLOAT", (".types", "FLOAT"));
    ("FloatRange", (".types", "FloatRange"));
    ("INT", (".types", "INT"));
    ("IntRange", (".types", "IntRange"));
    ("ParamType", (".types", "ParamType"));
    ("Path", (".types", "Path"));
    ("STRING", (".types", "STRING"));
    ("Tuple", (".types", "Tuple"));
    ("UNPROCESSED", (".types", "UNPROCESSED"));
    ("UUID", (".types", "UUID"));
    (* utils *)
    ("echo", (".utils", "echo"));
    ("format_filename", (".utils", "format_filename"));
    ("get_app_dir", (".utils", "get_app_dir"));
    ("get_binary_stream", (".utils", "get_binary_stream"));
    ("get_text_stream", (".utils", "get_text_stream"));
    ("open_file", (".utils", "open_file")) ].

Definition _lazy_imports : gmap string (string * string) :=
  dict _lazy_imports_items.

(** Deprecated imports with their replacements:
    name -> (module, actual_name, warning_message). *)
Definition _deprecated_imports_items
  : list (string * (string * string * string)) :=
  [ ("BaseCommand",
      (".core", "_BaseCommand",
       "'BaseCommand' is deprecated and will be removed in Click 9.0. Use"
       +:+ " 'Command' instead."));
    ("MultiCommand",
      (".core", "_MultiCommand",
       "'MultiCommand' is deprecated and will be removed in Click 9.0. Use"
       +:+ " 'Group' instead."));
    ("OptionParser",
      (".parser", "_OptionParser",
       "'OptionParser' is deprecated and will be removed in Click 9.0. The"
       +:+ " old parser is available in 'optparse'.")) ].

Definition _deprecated_imports : gmap string (string * string * string) :=
  dict _deprecated_imports_items.

Definition __all__ : list string :=
  [ (* core *)
    "Argument"; "Command"; "CommandCollection"; "Context"; "Group";
    "Option"; "Parameter";
    (* decorators *)
    "argument"; "command"; "confirmation_option"; "group"; "help_option";
    "make_pass_decorator"; "option"; "pass_context"; "pass_obj";
    "password_option"; "version_option";
    (* exceptions *)
    "Abort"; "BadArgumentUsage"; "BadOptionUsage"; "BadParameter";
    "ClickException"; "FileError"; "MissingParameter"; "NoSuchOption";
    "UsageError";
    (* formatting *)
    "HelpFormatter"; "wrap_text";
    (* globals *)
    "get_current_context";
    (* termui *)
    "clear"; "confirm"; "echo_via_pager"; "edit"; "getchar"; "launch";
    "pause"; "progressbar"; "prompt"; "secho"; "style"; "unstyle";
    (* types *)
    "BOOL"; "Choice"; "DateTime"; "File"; "FLOAT"; "FloatRange"; "INT";
    "IntRange"; "ParamType"; "Path"; "STRING"; "Tuple"; "UNPROCESSED";
    "UUID";
    (* utils *)
    "echo"; "format_filename"; "get_app_dir"; "get_binary_stream";
    "get_text_stream"; "open_file" ].

(** [__package__] of [click/__init__.py]: the name of the package itself,
    which [importlib.import_module] takes as the anchor of a relative
    module name. *)
Definition __package__ : string := "click".

(** The notice of the [__version__] branch (lines 209-211). *)
Definition version_notice : string :=
  "The '__version__' attribute is deprecated and will be removed in"
  +:+ " Click 9.1. Use feature detection or"
  +:+ " 'importlib.metadata.version(" +:+ dquote +:+ "click" +:+ dquote
  +:+ ")' instead.".

(** The name each notice of [_deprecated_imports] sends its reader to. The
    table has no field for it: it is the quoted name that follows the
    first sentence of the notice (lines 90-91, 96-97, 102-103). *)
Definition replacement (name : string) : option string :=
  if String.eqb name "BaseCommand" then Some "Command"
  else if String.eqb name "MultiCommand" then Some "Group"
  else if String.eqb name "OptionParser" then Some "optparse"
  else None.

(** ** The interpreter as the resolver sees it *)

(** The services [__getattr__] calls. [obj] is the type of object
    references (two references are the same object exactly when they are
    equal) and [H] the state of the interpreter outside the package
    namespace: the module table, the installed distributions. A call
    returns the new state and either the exception it raised or its
    value. *)
Class Host (obj H : Type) : Type := {
  (** [importlib.import_module(name, package)] *)
  import_module : string → string → H → H * (pyexc + obj);
  (** [getattr(module, attr_name)] *)
  getattr : obj → string → H → H * (pyexc + obj);
  (** [importlib.metadata.version(distribution_name)] *)
  metadata_version : string → H → H * (pyexc + obj);
  (** The module the import system has bound in the package namespace
      under a name: when the submodule [click.core] is loaded, by whatever
      import, its parent package gets it as the attribute [core]. *)
  submodule : string → H → option obj
}.

(** What leaves the resolver, in the order it happens. *)
Inductive event (obj : Type) : Type :=
  | Import (name package : string)
  | Getattr (module : obj) (attr_name : string)
  | Warn (message : string) (cat : category) (stacklevel : nat)
  | Version (distribution_name : string).
Arguments Import {obj} name package.
Arguments Getattr {obj} module attr_name.
Arguments Warn {obj} message cat stacklevel.
Arguments Version {obj} distribution_name.

Definition is_warn {obj : Type} (e : event obj) : bool :=
  match e with Warn _ _ _ => true | _ => false end.

Definition is_import {obj : Type} (e : event obj) : bool :=
  match e with Import _ _ => true | _ => false end.

(** Calls that ask the interpreter for a value. *)
Definition is_host_call {obj : Type} (e : event obj) : bool :=
  negb (is_warn e).

(** The frame a warning is attributed to: [stacklevel=1] is the function
    that called [warnings.warn], [stacklevel=2] its caller, and so on.
    [stack] is the call stack at the call of [warn], innermost frame
    first. *)
Definition warning_frame {F : Type} (stacklevel : nat) (stack : list F)
  : option F :=
  stack !! (stacklevel - 1).

Section resolver.
Context {obj H : Type} {host : Host obj H}.

(** The package namespace and the rest of the interpreter. The entries
    of [globals] that the resolver writes are the resolution cache; what
    the import system binds in the package on its own account (the
    submodule objects, under names such as [core]) belongs to [interp]
    and is read with [submodule]. *)
Record world : Type := World { globals : gmap string obj; interp : H }.

(** A name looked up in the package namespace: a binding kept in
    [globals], or else the submodule the import system has bound under
    the name. *)
Definition namespace_lookup (name : string) (σ : world) : option obj :=
  match globals σ !! name with
  | Some value => Some value
  | None => submodule name (interp σ)
  end.
Global Arguments namespace_lookup : simpl never.

(** The result of running a piece of the resolver. *)
Record run (A : Type) : Type :=
  Run { emitted : list (event obj); final : world; outcome : pyexc + A }.
Global Arguments Run {A} emitted final outcome.
Global Arguments emitted {A} r.
Global Arguments final {A} r.
Global Arguments outcome {A} r.

(** State, exceptions and the record of calls. *)
Definition M (A : Type) : Type := world → run A.

Definition ret {A : Type} (a : A) : M A := λ σ, Run [] σ (inr a).

Definition raise {A : Type} (e : pyexc) : M A := λ σ, Run [] σ (inl e).

(** Sequencing: an exception of the first part ends the run. *)
Definition bind {A B : Type} (m : M A) (k : A → M B) : M B := λ σ,
  let r := m σ in
  match outcome r with
  | inl e => Run (emitted r) (final r) (inl e)
  | inr a =>
      let r' := k a (final r) in
      Run (emitted r ++ emitted r') (final r') (outcome r')
  end.

(** One call of a service: recorded, then run on the interpreter. *)
Definition call (e : event obj) (f : H → H * (pyexc + obj)) : M obj := λ σ,
  let '(h, r) := f (interp σ) in
  Run [e] {| globals := globals σ; interp := h |} r.

Definition importlib_import_module (name package : string) : M obj :=
  call (Import name package) (import_module name package).

Definition py_getattr (module : obj) (attr_name : string) : M obj :=
  call (Getattr module attr_name) (getattr module attr_name).

Definition importlib_metadata_version (distribution_name : string) : M obj :=
  call (Version distribution_name) (metadata_version distribution_name).

(** [warnings.warn(message, category, stacklevel=...)]: the signal is
    handed over and the call returns. What the warning filters then do
    with it (show it, drop it, turn it into an exception) is outside this
    development. *)
Definition warnings_warn (message : string) (cat : category)
    (stacklevel : nat) : M unit := λ σ,
  Run [Warn message cat stacklevel] σ (inr tt).

(** [globals()[name] = value] (line 190). The name [globals] is looked
    up in the package namespace before the builtins. The resolver binds
    live exports only and [globals] is not one of them, so what the
    namespace has under this name is the submodule [click.globals], bound
    there once that unit is loaded: a module, and the call of a module
    raises [TypeError]. With the name unbound, [globals] is the builtin
    and the item is stored in the namespace. *)
Definition globals_setitem (name : string) (value : obj) : M unit := λ σ,
  match namespace_lookup "globals" σ with
  | Some _ => Run [] σ (inl (TypeError "'module' object is not callable"))
  | None =>
      Run []
          {| globals := <[name := value]> (globals σ); interp := interp σ |}
          (inr tt)
  end.
End resolver.

Arguments world obj H : clear implicits.
Arguments run obj H A : clear implicits.
Arguments M obj H A : clear implicits.

Declare Scope py_scope.
Delimit Scope py_scope with py.
Notation "x <- m ;; k" := (bind m (λ x, k))
  (at level 100, m at next level, right associativity) : py_scope.
Notation "m ;; k" := (bind m (λ _, k))
  (at level 100, right associativity) : py_scope.

Section getattr.
Context {obj H : Type} {host : Host obj H}.
Open Scope py_scope.

(** [__getattr__] (lines 181-217). [name in d] followed by [d[name]] is
    one lookup. *)
Definition __getattr__ (name : string) : M obj H obj :=
  (* Handle lazy imports *)
  match _lazy_imports !! name with
  | Some (module_name, attr_name) =>
      module <- importlib_import_module module_name __package__;;
      value <- py_getattr module attr_name;;
      (* Cache the import in the module's globals for subsequent access *)
      globals_setitem name value;;
      ret value
  | None =>
  (* Handle deprecated imports *)
  match _deprecated_imports !! name with
  | Some (module_name, attr_name, warning_msg) =>
      warnings_warn warning_msg DeprecationWarning 2;;
      module <- importlib_import_module module_name __package__;;
      py_getattr module attr_name
  | None =>
  (* Handle __version__ specially *)
  if String.eqb name "__version__" then
    warnings_warn version_notice DeprecationWarning 2;;
    importlib_metadata_version "click"
  else
    raise (AttributeError name)
  end end.

(** Attribute access on a module object, [click.name]: the module
    namespace is searched first, and the module-level [__getattr__] is
    called only when the name is not bound there. The search is in
    [globals]: this is the access to the names the resolver answers for,
    the keys of the two tables and "__version__" among them; the name of
    a loaded submodule and the attributes every module object has are
    found by the interpreter without the resolver and are not accessed
    here. *)
Definition module_getattribute (fallback : string → M obj H obj)
    (name : string) : M obj H obj := λ σ,
  match globals σ !! name with
  | Some value => Run [] σ (inr value)
  | None => fallback name σ
  end.

(** [click.name] *)
Definition click_attr (name : string) : M obj H obj :=
  module_getattribute __getattr__ name.

(** The namespace and interpreter after a series of attribute accesses,
    whatever each of them returned or raised. *)
Definition accesses (names : list string) (σ : world obj H) : world obj H :=
  foldl (λ σ name, final (click_attr name σ)) σ names.

(** What such a series emits, access after access. *)
Fixpoint accesses_emitted (names : list string) (σ : world obj H)
  : list (event obj) :=
  match names with
  | [] => []
  | name :: names =>
      emitted (click_attr name σ)
      ++ accesses_emitted names (final (click_attr name σ))
  end.

(** The call of the loader [__getattr__] has for a name (lines 183-187,
    194-200). *)
Definition load_of (name : string) : list (event obj) :=
  match _lazy_imports !! name, _deprecated_imports !! name with
  | Some (module_name, _), _ => [Import module_name __package__]
  | None, Some (module_name, _, _) => [Import module_name __package__]
  | None, None => []
  end.

(** The signal [__getattr__] has for a name (lines 194-199, 204-214). *)
Definition signal_of (name : string) : list (event obj) :=
  match _deprecated_imports !! name with
  | Some (_, _, warning_msg) => [Warn warning_msg DeprecationWarning 2]
  | None =>
      if String.eqb name "__version__"
      then [Warn version_notice DeprecationWarning 2]
      else []
  end.
End getattr.

(** ** Two interpreters to run the resolver on

    Objects are named by their qualified name and the interpreter state
    is the module table, the list of the units loaded so far. A unit of
    these installations imports no other unit: a load adds that one unit
    to the table, and with it its name to the package. *)
Module Demo.

Definition units : list string :=
  [".core"; ".decorators"; ".exceptions"; ".formatting"; ".globals";
   ".termui"; ".types"; ".utils"; ".parser"].

(** Loading is idempotent: a unit already in the table is returned as it
    is. *)
Definition load (name package : string) (modules : list string)
  : list string * (pyexc + string) :=
  let full := package +:+ name in
  if bool_decide (name ∈ units) then
    (if bool_decide (full ∈ modules) then modules else (modules ++ [full])%list,
     inr full)
  else (modules, inl (ModuleNotFoundError full)).

Definition fetch (module attr_name : string) (modules : list string)
  : list string * (pyexc + string) :=
  (modules, inr (module +:+ "." +:+ attr_name)).

Definition version (distribution_name : string) (modules : list string)
  : list string * (pyexc + string) :=
  (modules, inr ("version of " +:+ distribution_name)).

(** A loaded unit is bound in the package under its own name. *)
Definition bound (name : string) (modules : list string) : option string :=
  if bool_decide (__package__ +:+ "." +:+ name ∈ modules)
  then Some (__package__ +:+ "." +:+ name)
  else None.

(** An installation with all its units. *)
Definition installed : Host string (list string) :=
  {| import_module := load; getattr := fetch; metadata_version := version;
     submodule := bound |}.

(** An installation whose units cannot be found. *)
Definition broken : Host string (list string) :=
  {| import_module name package modules :=
       (modules, inl (ModuleNotFoundError (package +:+ name)));
     getattr := fetch;
     metadata_version := version;
     submodule := bound |}.

(** An installation whose units load but have lost their symbols. *)
Definition drifted : Host string (list string) :=
  {| import_module := load;
     getattr module attr_name modules :=
       (modules, inl (AttributeError attr_name));
     metadata_version := version;
     submodule := bound |}.

(** The package just imported: nothing resolved, no unit loaded. *)
Definition fresh : world string (list string) :=
  {| globals := ∅; interp := [] |}.

End Demo.

(** ** Properties of the registry *)

(** A decidable statement about the tables is settled by running its
    decision procedure. *)
Ltac decide_by_running :=
  apply (bool_decide_unpack _); vm_compute; exact I.

Lemma dict_lookup_Some {V : Type} (items : list (string * V)) (k : string)
    (v : V) :
  dict items !! k = Some v → (k, v) ∈ items.
Proof.
  unfold dict.
  assert (G : ∀ d : gmap string V,
             foldl (λ d kv, <[kv.1 := kv.2]> d) d items !! k = Some v →
             (k, v) ∈ items ∨ d !! k = Some v).
  { induction items as [|[k' v'] items IH]; intros d Hd; simpl in *.
    - by right.
    - destruct (IH _ Hd) as [Hin|Hk]; [left; by right|].
      destruct (decide (k' = k)) as [->|Hne].
      + rewrite lookup_insert_eq in Hk. injection Hk as ->. left; by left.
      + rewrite lookup_insert_ne in Hk by done. by right. }
  intros Hd. destruct (G ∅ Hd) as [Hin|Hk]; [done|].
  by rewrite lookup_empty in Hk.
Qed.

Lemma deprecated_cases (n : string) (x : string * string * string) :
  _deprecated_imports !! n = Some x →
  n = "BaseCommand" ∨ n = "MultiCommand" ∨ n = "OptionParser".
Proof.
  intros Hn. apply dict_lookup_Some in Hn.
  unfold _deprecated_imports_items in Hn.
  repeat (apply elem_of_cons in Hn as [Hn|Hn]; [injection Hn; tauto|]).
  by apply elem_of_nil in Hn.
Qed.

Lemma deprecated_not_live (n : string) (x : string * string * string) :
  _deprecated_imports !! n = Some x → _lazy_imports !! n = None.
Proof.
  intros Hn.
  destruct (deprecated_cases n x Hn) as [->|[->| ->]]; by vm_compute.
Qed.

Lemma version_not_registered :
  _lazy_imports !! "__version__" = None
  ∧ _deprecated_imports !! "__version__" = None.
Proof. split; by vm_compute. Qed.

(** The resolver never binds the name [globals]: it is no live
    export. *)
Lemma globals_is_no_live_export : _lazy_imports !! "globals" = None.
Proof. by vm_compute. Qed.

Lemma prefix_refl (s : string) : String.prefix s s = true.
Proof.
  induction s as [|c s IH]; simpl; [done|].
  destruct (ascii_dec c c); [done|congruence].
Qed.

Lemma contains_prefix (needle haystack : string) :
  String.prefix needle haystack = true → contains needle haystack = true.
Proof. intros Hp. destruct haystack; unfold contains; by rewrite Hp. Qed.

Lemma contains_refl (s : string) : contains s s = true.
Proof. apply contains_prefix, prefix_refl. Qed.

(** C4. The export list [__all__] and the key set of [_lazy_imports] are
    the same set: a name is listed in [__all__] exactly when it is a key
    of the live-export table. *)
Theorem all_is_lazy_imports_keys :
  list_to_set __all__ =@{gset string} dom _lazy_imports
  ∧ ∀ n : string, n ∈ __all__ ↔ is_Some (_lazy_imports !! n).
Proof.
  assert (E : list_to_set __all__ =@{gset string} dom _lazy_imports)
    by decide_by_running.
  split; [done|]. intros n.
  rewrite <- elem_of_dom, <- E, elem_of_list_to_set. reflexivity.
Qed.

(** C6. No name is a key of both [_lazy_imports] and
    [_deprecated_imports], and neither dictionary display writes a key
    twice. *)
Theorem registry_disjoint_and_duplicate_free :
  NoDup (keys _lazy_imports_items)
  ∧ NoDup (keys _deprecated_imports_items)
  ∧ dom _lazy_imports = list_to_set (keys _lazy_imports_items)
  ∧ dom _deprecated_imports = list_to_set (keys _deprecated_imports_items)
  ∧ ∀ n : string,
      ¬ (is_Some (_lazy_imports !! n) ∧ is_Some (_deprecated_imports !! n)).
Proof.
  split_and!.
  - decide_by_running.
  - decide_by_running.
  - decide_by_running.
  - decide_by_running.
  - intros n [Hl [x Hd]]. apply deprecated_not_live in Hd.
    rewrite Hd in Hl. by destruct Hl.
Qed.

(** ** The shape of the entries *)

(** A property of the items of a dictionary display holds of what a
    lookup returns. *)
Lemma dict_lookup_Forall {V : Type} (P : string * V → Prop)
    (items : list (string * V)) (k : string) (v : V) :
  Forall P items → dict items !! k = Some v → P (k, v).
Proof.
  intros HP Hk. apply dict_lookup_Some in Hk.
  by apply (proj1 (Forall_forall P items) HP).
Qed.

(** X10. Every live export is the symbol of its own name in a unit that is
    named relative to the package. *)
Theorem live_entry_shape (n u s : string) :
  _lazy_imports !! n = Some (u, s) →
  s = n ∧ String.prefix "." u = true.
Proof.
  intros Hn.
  apply (dict_lookup_Forall
           (λ kv, kv.2.2 = kv.1 ∧ String.prefix "." kv.2.1 = true)
           _lazy_imports_items n (u, s)); [|done].
  decide_by_running.
Qed.

(** X11. Every deprecated name is kept under its own name with an underscore
    in front, in a unit named relative to the package, and its notice
    opens with the quoted name and the release that removes it. *)
Theorem deprecated_entry_shape (n u s msg : string) :
  _deprecated_imports !! n = Some (u, s, msg) →
  s = "_" +:+ n
  ∧ String.prefix "." u = true
  ∧ String.prefix
      ("'" +:+ n +:+ "' is deprecated and will be removed in Click 9.0.")
      msg = true.
Proof.
  intros Hn.
  apply (dict_lookup_Forall
           (λ kv, kv.2.1.2 = "_" +:+ kv.1
                  ∧ String.prefix "." kv.2.1.1 = true
                  ∧ String.prefix
                      ("'" +:+ kv.1
                       +:+ "' is deprecated and will be removed in Click 9.0.")
                      kv.2.2 = true)
           _deprecated_imports_items n (u, s, msg)); [|done].
  decide_by_running.
Qed.

(** X12. [__all__] lists the keys of [_lazy_imports] in the order the table
    writes them, each of them once. *)
Theorem all_in_table_order :
  __all__ = keys _lazy_imports_items ∧ NoDup __all__.
Proof. split; decide_by_running. Qed.

(** ** Properties of the resolver *)

Section properties.
Context {obj H : Type} {host : Host obj H}.
Implicit Types (σ : world obj H) (n u s msg : string) (m v : obj) (h : H).

(** Unfolds the monad and the service calls of a run. *)
Ltac step_run :=
  unfold bind, ret, raise, importlib_import_module, py_getattr,
    importlib_metadata_version, warnings_warn, globals_setitem, call;
  simpl.

(** Goes through a list of events that is known in full: a signal is
    settled by [HW], any other event by [HO]. *)
Ltac each_event HW HO :=
  repeat (apply List.Forall_cons; [first [apply HW | by apply HO]|]);
  apply List.Forall_nil.

(** The three registered shapes of [__getattr__]. *)
Lemma getattr_live n u s σ :
  _lazy_imports !! n = Some (u, s) →
  __getattr__ n σ =
    (module <- importlib_import_module u __package__;;
     value <- py_getattr module s;;
     globals_setitem n value;;
     ret value)%py σ.
Proof. intros Hn. unfold __getattr__. by rewrite Hn. Qed.

Lemma getattr_deprecated n u s msg σ :
  _deprecated_imports !! n = Some (u, s, msg) →
  __getattr__ n σ =
    (warnings_warn msg DeprecationWarning 2;;
     module <- importlib_import_module u __package__;;
     py_getattr module s)%py σ.
Proof.
  intros Hn. unfold __getattr__.
  by rewrite (deprecated_not_live _ _ Hn), Hn.
Qed.

Lemma getattr_version σ :
  __getattr__ "__version__" σ =
    (warnings_warn version_notice DeprecationWarning 2;;
     importlib_metadata_version "click")%py σ.
Proof.
  unfold __getattr__.
  destruct version_not_registered as [-> ->]. done.
Qed.

Lemma getattr_unknown n σ :
  _lazy_imports !! n = None → _deprecated_imports !! n = None →
  n ≠ "__version__" →
  __getattr__ n σ = Run [] σ (inl (AttributeError n)).
Proof.
  intros Hl Hd Hv. unfold __getattr__. rewrite Hl, Hd.
  destruct (String.eqb_spec n "__version__"); done.
Qed.

(** A run of the resolver writes the namespace at most once, under the
    requested name, and only for a live export that was fetched. *)
Lemma getattr_globals n σ :
  globals (final (__getattr__ n σ)) = globals σ
  ∨ ∃ v, is_Some (_lazy_imports !! n)
         ∧ outcome (__getattr__ n σ) = inr v
         ∧ globals (final (__getattr__ n σ)) = <[n := v]> (globals σ).
Proof.
  unfold __getattr__.
  destruct (_lazy_imports !! n) as [[u s]|] eqn:Hl.
  - step_run.
    destruct (import_module u __package__ (interp σ)) as [h1 [e|m]];
      simpl; [by left|].
    destruct (getattr m s h1) as [h2 [e|v]]; simpl; [by left|].
    destruct (namespace_lookup "globals" _); simpl; [by left|].
    right. exists v. eauto.
  - destruct (_deprecated_imports !! n) as [[[u s] msg]|].
    + left. step_run.
      destruct (import_module u __package__ (interp σ)) as [h1 [e|m]];
        simpl; [done|].
      by destruct (getattr m s h1) as [h2 [e|v]].
    + left. destruct (String.eqb n "__version__"); [|done].
      step_run. by destruct (metadata_version "click" (interp σ)) as [h [e|v]].
Qed.

(** A name bound in the namespace is answered from it: the fallback is
    not run. *)
Lemma cache_hit (fallback : string → M obj H obj) n v σ :
  globals σ !! n = Some v →
  module_getattribute fallback n σ = Run [] σ (inr v).
Proof. intros Hn. unfold module_getattribute. by rewrite Hn. Qed.

Lemma cache_miss n σ :
  globals σ !! n = None → click_attr n σ = __getattr__ n σ.
Proof. intros Hn. unfold click_attr, module_getattribute. by rewrite Hn. Qed.

(** An attribute access leaves every other binding of the namespace as it
    was, and binds nothing but a live export. *)
Lemma click_attr_keeps_bound n n' v σ :
  globals σ !! n = Some v →
  globals (final (click_attr n' σ)) !! n = Some v.
Proof.
  intros Hn. destruct (globals σ !! n') as [v'|] eqn:Hn'.
  - unfold click_attr. by rewrite (cache_hit _ _ _ _ Hn').
  - rewrite (cache_miss _ _ Hn').
    destruct (getattr_globals n' σ) as [->|(w & _ & _ & ->)]; [done|].
    rewrite lookup_insert_ne; [done|]. congruence.
Qed.

Lemma click_attr_keeps_unbound n n' σ :
  _lazy_imports !! n = None →
  globals σ !! n = None →
  globals (final (click_attr n' σ)) !! n = None.
Proof.
  intros Hl Hn. destruct (globals σ !! n') as [v'|] eqn:Hn'.
  - unfold click_attr. by rewrite (cache_hit _ _ _ _ Hn').
  - rewrite (cache_miss _ _ Hn').
    destruct (getattr_globals n' σ) as [->|(w & [x Hx] & _ & ->)]; [done|].
    rewrite lookup_insert_ne; [done|]. congruence.
Qed.

Lemma accesses_keep_bound names n v σ :
  globals σ !! n = Some v → globals (accesses names σ) !! n = Some v.
Proof.
  revert σ. induction names as [|n' names IH]; intros σ Hn; [done|].
  apply IH. by apply click_attr_keeps_bound.
Qed.

Lemma accesses_keep_unbound names n σ :
  _lazy_imports !! n = None →
  globals σ !! n = None → globals (accesses names σ) !! n = None.
Proof.
  intros Hl. revert σ.
  induction names as [|n' names IH]; intros σ Hn; [done|].
  apply IH. by apply click_attr_keeps_unbound.
Qed.

(** With the name [globals] unbound in the package namespace at the
    store, a key [n] of [_lazy_imports] whose unit loads and whose symbol
    is fetched is bound to the fetched value and that value is
    returned. *)
Lemma live_lookup_stores n u s σ h1 h2 m v :
  _lazy_imports !! n = Some (u, s) →
  import_module u __package__ (interp σ) = (h1, inr m) →
  getattr m s h1 = (h2, inr v) →
  namespace_lookup "globals" {| globals := globals σ; interp := h2 |}
  = None →
  __getattr__ n σ =
    Run [Import u __package__; Getattr m s]
        {| globals := <[n := v]> (globals σ); interp := h2 |}
        (inr v).
Proof.
  intros Hn Hload Hfetch Hfree.
  rewrite (getattr_live _ _ _ _ Hn). step_run.
  rewrite Hload. simpl. rewrite Hfetch. simpl. by rewrite Hfree.
Qed.

(** C1. Resolving a key [n] of [_lazy_imports] imports the unit of the
    entry with [__package__] as anchor and fetches the symbol of the
    entry; the fetched value is meant to be bound to [n] and returned
    (line 189). When the package namespace binds the name [globals] by
    then, which it does as soon as the unit [.globals] is loaded, the
    store of line 190 raises [TypeError] instead: the fetched value is
    neither bound to [n] nor returned. *)
Theorem live_lookup_raises_when_globals_is_bound n u s σ h1 h2 m v g :
  _lazy_imports !! n = Some (u, s) →
  import_module u __package__ (interp σ) = (h1, inr m) →
  getattr m s h1 = (h2, inr v) →
  namespace_lookup "globals" {| globals := globals σ; interp := h2 |}
  = Some g →
  __getattr__ n σ =
    Run [Import u __package__; Getattr m s]
        {| globals := globals σ; interp := h2 |}
        (inl (TypeError "'module' object is not callable")).
Proof.
  intros Hn Hload Hfetch Hbound.
  rewrite (getattr_live _ _ _ _ Hn). step_run.
  rewrite Hload. simpl. rewrite Hfetch. simpl. by rewrite Hbound.
Qed.


(** C2. After an access to a key [n] of [_lazy_imports] has returned a
    value, every later access to [n], whatever was accessed in between,
    returns that same object, calls nothing and changes nothing; it does
    not run the fallback at all, so neither the loader nor the tables are
    consulted. *)
Theorem cached_export_is_stable n u s σ v :
  _lazy_imports !! n = Some (u, s) →
  outcome (click_attr n σ) = inr v →
  ∀ (names : list string) (fallback : string → M obj H obj),
    module_getattribute fallback n (accesses names (final (click_attr n σ)))
    = Run [] (accesses names (final (click_attr n σ))) (inr v).
Proof.
  intros Hn Hv names fallback.
  apply cache_hit, accesses_keep_bound.
  destruct (globals σ !! n) as [v'|] eqn:Hg.
  - unfold click_attr in *. rewrite (cache_hit _ _ _ _ Hg) in *.
    simpl in *. congruence.
  - rewrite (cache_miss _ _ Hg) in *.
    destruct (getattr_globals n σ) as [Hsame|(w & _ & Hw & ->)].
    + exfalso. revert Hv. rewrite (getattr_live _ _ _ _ Hn). step_run.
      revert Hsame. rewrite (getattr_live _ _ _ _ Hn). step_run.
      destruct (import_module u __package__ (interp σ)) as [h1 [e|m]];
        simpl; [done|].
      destruct (getattr m s h1) as [h2 [e|w]]; simpl; [done|].
      destruct (namespace_lookup "globals" _); simpl; [done|].
      intros Hsame [= ->].
      assert (Hins : <[n := v]> (globals σ) !! n = Some v)
        by apply lookup_insert_eq.
      rewrite Hsame in Hins. congruence.
    + rewrite Hw in Hv. injection Hv as ->. apply lookup_insert_eq.
Qed.

(** C3. Resolving a key [n] of [_deprecated_imports] emits one
    deprecation signal, no more and no fewer, whose message is the notice
    of the entry; the notice has the word "deprecated" and the quoted
    name of the replacement; the value returned is the symbol fetched from
    the unit of the entry; the namespace is left as it was, so the next
    access reaches the resolver and emits the signal again. *)
Theorem deprecated_lookup n u s msg σ :
  _deprecated_imports !! n = Some (u, s, msg) →
  filter is_warn (emitted (__getattr__ n σ))
    = [Warn msg DeprecationWarning 2]
  ∧ contains "deprecated" msg = true
  ∧ (∃ new, replacement n = Some new
            ∧ contains ("'" +:+ new +:+ "'") msg = true)
  ∧ (∀ h1 h2 m v,
       import_module u __package__ (interp σ) = (h1, inr m) →
       getattr m s h1 = (h2, inr v) →
       __getattr__ n σ =
         Run [Warn msg DeprecationWarning 2; Import u __package__;
              Getattr m s]
             {| globals := globals σ; interp := h2 |}
             (inr v))
  ∧ globals (final (__getattr__ n σ)) = globals σ
  ∧ (globals σ !! n = None →
     ∀ names : list string,
       click_attr n (accesses names σ) = __getattr__ n (accesses names σ))
  ∧ filter is_warn (emitted (__getattr__ n (final (__getattr__ n σ))))
    = [Warn msg DeprecationWarning 2].
Proof.
  intros Hn.
  assert (Hsig : ∀ σ', filter is_warn (emitted (__getattr__ n σ'))
                       = [Warn msg DeprecationWarning 2]).
  { intros σ'. rewrite (getattr_deprecated _ _ _ _ _ Hn). step_run.
    destruct (import_module u __package__ (interp σ')) as [h1 [e|m]];
      simpl; [done|].
    by destruct (getattr m s h1) as [h2 [e|v]]. }
  split_and!.
  - apply Hsig.
  - destruct (deprecated_cases _ _ Hn) as [->|[->| ->]];
      vm_compute in Hn; simplify_eq; by vm_compute.
  - destruct (deprecated_cases _ _ Hn) as [->|[->| ->]];
      vm_compute in Hn; simplify_eq;
      (eexists; split; [reflexivity|by vm_compute]).
  - intros h1 h2 m v Hload Hfetch.
    rewrite (getattr_deprecated _ _ _ _ _ Hn). step_run.
    rewrite Hload. simpl. by rewrite Hfetch.
  - destruct (getattr_globals n σ) as [->|(w & Hl & _)]; [done|].
    rewrite (deprecated_not_live _ _ Hn) in Hl. by destruct Hl.
  - intros Hg names. apply cache_miss, accesses_keep_unbound; [|done].
    by apply (deprecated_not_live _ _ Hn).
  - apply Hsig.
Qed.

(** C5. A name that is not bound in the namespace, is a key of neither
    table and is not "__version__" raises [AttributeError]; the message of
    the exception is the name itself, so it contains the name; nothing is
    emitted on the way, no deprecation signal in particular, and nothing
    changes. *)
Theorem unresolvable_name n σ :
  globals σ !! n = None →
  _lazy_imports !! n = None →
  _deprecated_imports !! n = None →
  n ≠ "__version__" →
  click_attr n σ = Run [] σ (inl (AttributeError n))
  ∧ __getattr__ n σ = Run [] σ (inl (AttributeError n))
  ∧ exc_class (AttributeError n) = "AttributeError"
  ∧ contains n (exc_str (AttributeError n)) = true
  ∧ filter is_warn (emitted (click_attr n σ)) = [].
Proof.
  intros Hg Hl Hd Hv.
  assert (E : __getattr__ n σ = Run [] σ (inl (AttributeError n)))
    by by apply getattr_unknown.
  rewrite (cache_miss _ _ Hg), E. split_and!; try done.
  apply contains_refl.
Qed.

(** C7. "__version__" is a key of neither table. Resolving it emits a
    deprecation signal whose notice names
    [importlib.metadata.version("click")], then asks the metadata facility
    for the version of "click" and returns what the facility returns (or
    raises what it raises). The namespace is left as it was, so every
    access reaches the resolver, emits and asks again. *)
Theorem version_lookup σ :
  _lazy_imports !! "__version__" = None
  ∧ _deprecated_imports !! "__version__" = None
  ∧ __getattr__ "__version__" σ =
      Run [Warn version_notice DeprecationWarning 2; Version "click"]
          {| globals := globals σ;
             interp := (metadata_version "click" (interp σ)).1 |}
          (metadata_version "click" (interp σ)).2
  ∧ contains
      ("importlib.metadata.version(" +:+ dquote +:+ "click" +:+ dquote
       +:+ ")")
      version_notice = true
  ∧ contains "deprecated" version_notice = true
  ∧ (globals σ !! "__version__" = None →
     ∀ names : list string,
       click_attr "__version__" (accesses names σ)
       = __getattr__ "__version__" (accesses names σ)).
Proof.
  destruct version_not_registered as [Hl Hd]. split_and!; try done.
  - rewrite getattr_version. step_run.
    by destruct (metadata_version "click" (interp σ)) as [h [e|v]].
  - intros Hg names. by apply cache_miss, accesses_keep_unbound.
Qed.

(** C8. When [importlib.import_module] raises while a key of either table
    is resolved, the resolver raises that same exception; the loader was
    called once and nothing else was asked of the interpreter; the
    namespace is the one before the call. *)
Theorem load_failure_propagates n u s σ h e :
  (_lazy_imports !! n = Some (u, s)
   ∨ ∃ msg, _deprecated_imports !! n = Some (u, s, msg)) →
  import_module u __package__ (interp σ) = (h, inl e) →
  outcome (__getattr__ n σ) = inl e
  ∧ filter is_host_call (emitted (__getattr__ n σ))
    = [Import u __package__]
  ∧ globals (final (__getattr__ n σ)) = globals σ
  ∧ interp (final (__getattr__ n σ)) = h.
Proof.
  intros [Hn|[msg Hn]] Hload.
  - rewrite (getattr_live _ _ _ _ Hn). step_run. by rewrite Hload.
  - rewrite (getattr_deprecated _ _ _ _ _ Hn). step_run. by rewrite Hload.
Qed.

(** C9. Every deprecation signal of a run of the resolver, for any name,
    has category [DeprecationWarning] and [stacklevel] 2, and with the
    resolver's frame innermost a signal of that level is attributed to
    the frame of the caller, not to the resolver's. The deprecated names
    and "__version__" do emit such a signal. *)
Theorem signals_point_at_consumer n σ :
  Forall (λ e, ∀ message cat stacklevel,
            e = Warn message cat stacklevel →
            cat = DeprecationWarning
            ∧ stacklevel = 2
            ∧ ∀ (F : Type) (resolver consumer : F) (outer : list F),
                warning_frame stacklevel (resolver :: consumer :: outer)
                = Some consumer)
         (emitted (__getattr__ n σ))
  ∧ (is_Some (_deprecated_imports !! n) ∨ n = "__version__" →
     ∃ message,
       filter is_warn (emitted (__getattr__ n σ))
       = [Warn message DeprecationWarning 2]).
Proof.
  split.
  - match goal with |- Forall ?Q _ => set (P := Q) end.
    assert (HW : ∀ message, P (Warn message DeprecationWarning 2)).
    { intros notice a b c [= _ <- <-]. by split_and!. }
    assert (HO : ∀ e, is_warn e = false → P e).
    { by intros [] He a b c Hw. }
    unfold __getattr__.
    destruct (_lazy_imports !! n) as [[u s]|].
    { step_run.
      destruct (import_module u __package__ (interp σ)) as [h1 [e|m]];
        simpl; [each_event HW HO|].
      destruct (getattr m s h1) as [h2 [e|v]]; simpl;
        [each_event HW HO|].
      destruct (namespace_lookup "globals" _); simpl; each_event HW HO. }
    destruct (_deprecated_imports !! n) as [[[u s] msg]|].
    { step_run.
      destruct (import_module u __package__ (interp σ)) as [h1 [e|m]];
        simpl; [each_event HW HO|].
      destruct (getattr m s h1) as [h2 [e|v]]; simpl; each_event HW HO. }
    destruct (String.eqb n "__version__"); [|each_event HW HO].
    step_run.
    destruct (metadata_version "click" (interp σ)) as [h [e|v]]; simpl;
      each_event HW HO.
  - intros [[[[u s] msg] Hn]| ->].
    + exists msg. rewrite (getattr_deprecated _ _ _ _ _ Hn). step_run.
      destruct (import_module u __package__ (interp σ)) as [h1 [e|m]];
        simpl; [done|].
      by destruct (getattr m s h1) as [h2 [e|v]].
    + exists version_notice. rewrite getattr_version. step_run.
      by destruct (metadata_version "click" (interp σ)) as [h [e|v]].
Qed.

(** C10. For a key of [_deprecated_imports] the deprecation signal is the
    first event of the run and the call of the loader the second; when
    the loader raises, the run ends there with that exception, the signal
    already emitted. *)
Theorem deprecation_signal_precedes_load n u s msg σ :
  _deprecated_imports !! n = Some (u, s, msg) →
  (∃ rest,
     emitted (__getattr__ n σ)
     = Warn msg DeprecationWarning 2 :: Import u __package__ :: rest
     ∧ Forall (λ e, is_warn e = false ∧ is_import e = false) rest)
  ∧ ∀ h e,
      import_module u __package__ (interp σ) = (h, inl e) →
      __getattr__ n σ =
        Run [Warn msg DeprecationWarning 2; Import u __package__]
            {| globals := globals σ; interp := h |}
            (inl e).
Proof.
  intros Hn. rewrite (getattr_deprecated _ _ _ _ _ Hn). step_run. split.
  - destruct (import_module u __package__ (interp σ)) as [h1 [e|m]];
      simpl; [by exists []|].
    destruct (getattr m s h1) as [h2 [e|v]]; simpl;
      (eexists; split; [reflexivity|by repeat constructor]).
  - intros h e Hload. by rewrite Hload.
Qed.

(** ** Further properties of the resolver *)

(** The signals of one run, for any name. *)
Lemma getattr_signals n σ :
  filter is_warn (emitted (__getattr__ n σ))
  = match _lazy_imports !! n with Some _ => [] | None => signal_of n end.
Proof.
  unfold __getattr__, signal_of.
  destruct (_lazy_imports !! n) as [[u s]|] eqn:Hl.
  - step_run.
    destruct (import_module u __package__ (interp σ)) as [h1 [e|m]];
      simpl; [done|].
    destruct (getattr m s h1) as [h2 [e|v]]; simpl; [done|].
    by destruct (namespace_lookup "globals" _).
  - destruct (_deprecated_imports !! n) as [[[u s] msg]|].
    + step_run.
      destruct (import_module u __package__ (interp σ)) as [h1 [e|m]];
        simpl; [done|].
      by destruct (getattr m s h1) as [h2 [e|v]].
    + destruct (String.eqb n "__version__"); [|done].
      step_run.
      by destruct (metadata_version "click" (interp σ)) as [h [e|v]].
Qed.

Lemma signal_of_live n :
  is_Some (_lazy_imports !! n) → signal_of (obj := obj) n = [].
Proof.
  intros Hl. unfold signal_of.
  destruct (_deprecated_imports !! n) as [[[u s] msg]|] eqn:Hd.
  - rewrite (deprecated_not_live _ _ Hd) in Hl. by destruct Hl.
  - destruct (String.eqb_spec n "__version__") as [->|]; [|done].
    rewrite (proj1 version_not_registered) in Hl. by destruct Hl.
Qed.

(** X1. When the unit loads but the fetch of the symbol raises, for a key of
    either table, the resolver raises that same exception after the one
    load and the one fetch, and binds nothing. *)
Theorem symbol_mismatch_propagates n u s σ h1 h2 m e :
  (_lazy_imports !! n = Some (u, s)
   ∨ ∃ msg, _deprecated_imports !! n = Some (u, s, msg)) →
  import_module u __package__ (interp σ) = (h1, inr m) →
  getattr m s h1 = (h2, inl e) →
  outcome (__getattr__ n σ) = inl e
  ∧ filter is_host_call (emitted (__getattr__ n σ))
    = [Import u __package__; Getattr m s]
  ∧ final (__getattr__ n σ) = {| globals := globals σ; interp := h2 |}.
Proof.
  intros [Hn|[msg Hn]] Hload Hfetch.
  - rewrite (getattr_live _ _ _ _ Hn). step_run.
    rewrite Hload. simpl. by rewrite Hfetch.
  - rewrite (getattr_deprecated _ _ _ _ _ Hn). step_run.
    rewrite Hload. simpl. by rewrite Hfetch.
Qed.

(** The calls of the loader of one run, for any name. *)
Lemma getattr_loads n σ :
  filter is_import (emitted (__getattr__ n σ)) = load_of n.
Proof.
  unfold __getattr__, load_of.
  destruct (_lazy_imports !! n) as [[u s]|].
  - step_run.
    destruct (import_module u __package__ (interp σ)) as [h1 [e|m]];
      simpl; [done|].
    destruct (getattr m s h1) as [h2 [e|v]]; simpl; [done|].
    by destruct (namespace_lookup "globals" _).
  - destruct (_deprecated_imports !! n) as [[[u s] msg]|].
    + step_run.
      destruct (import_module u __package__ (interp σ)) as [h1 [e|m]];
        simpl; [done|].
      by destruct (getattr m s h1) as [h2 [e|v]].
    + destruct (String.eqb n "__version__"); [|done].
      step_run.
      by destruct (metadata_version "click" (interp σ)) as [h [e|v]].
Qed.

(** X2. One run of the resolver calls the loader at most once: for the unit
    of the entry, with [__package__] as anchor, when the name is a key of
    one of the tables, and not at all for any other name, "__version__"
    included. *)
Theorem resolver_loads_only_its_unit n σ :
  filter is_import (emitted (__getattr__ n σ))
  = match _lazy_imports !! n, _deprecated_imports !! n with
    | Some (u, _), _ => [Import u __package__]
    | None, Some (u, _, _) => [Import u __package__]
    | None, None => []
    end.
Proof. apply getattr_loads. Qed.

(** X3. A value returned for a key of either table is the one the fetch of
    the entry's symbol gave, on the module the load of the entry's unit
    gave: the resolver has no value of its own to return. *)
Theorem returned_value_was_fetched n u s σ v :
  (_lazy_imports !! n = Some (u, s)
   ∨ ∃ msg, _deprecated_imports !! n = Some (u, s, msg)) →
  outcome (__getattr__ n σ) = inr v →
  ∃ h1 m h2,
    import_module u __package__ (interp σ) = (h1, inr m)
    ∧ getattr m s h1 = (h2, inr v)
    ∧ interp (final (__getattr__ n σ)) = h2.
Proof.
  intros [Hn|[msg Hn]].
  - rewrite (getattr_live _ _ _ _ Hn). step_run.
    destruct (import_module u __package__ (interp σ)) as [h1 [e|m]];
      simpl; [done|].
    destruct (getattr m s h1) as [h2 [e|w]] eqn:Hfetch; simpl; [done|].
    destruct (namespace_lookup "globals" _); simpl; [done|].
    intros [= ->]. by exists h1, m, h2.
  - rewrite (getattr_deprecated _ _ _ _ _ Hn). step_run.
    destruct (import_module u __package__ (interp σ)) as [h1 [e|m]];
      simpl; [done|].
    destruct (getattr m s h1) as [h2 [e|w]] eqn:Hfetch; simpl; [done|].
    intros [= ->]. by exists h1, m, h2.
Qed.

(** X4. A run of the resolver emits a deprecation signal exactly for the keys
    of [_deprecated_imports] and for "__version__": a live export and an
    unknown name never warn, whether the run returns or raises. *)
Theorem signal_iff_deprecated_or_version n σ :
  filter is_warn (emitted (__getattr__ n σ)) ≠ []
  ↔ is_Some (_deprecated_imports !! n) ∨ n = "__version__".
Proof.
  rewrite getattr_signals.
  destruct (_lazy_imports !! n) as [[u s]|] eqn:Hl.
  - split; [done|]. intros [[x Hd]| ->].
    + rewrite (deprecated_not_live _ _ Hd) in Hl. done.
    + rewrite (proj1 version_not_registered) in Hl. done.
  - unfold signal_of.
    destruct (_deprecated_imports !! n) as [[[u s] msg]|].
    + split; [by left|done].
    + destruct (String.eqb_spec n "__version__") as [->|Hv].
      * split; [by right|done].
      * split; [done|]. by intros [[x [=]]|?].
Qed.

(** One attribute access binds at most the accessed name, and only when
    it is a live export. *)
Lemma click_attr_new_binding n n' v σ :
  globals (final (click_attr n' σ)) !! n = Some v →
  globals σ !! n = Some v ∨ (n = n' ∧ is_Some (_lazy_imports !! n)).
Proof.
  destruct (globals σ !! n') as [v'|] eqn:Hn'.
  - unfold click_attr. rewrite (cache_hit _ _ _ _ Hn'). by left.
  - rewrite (cache_miss _ _ Hn').
    destruct (getattr_globals n' σ) as [->|(w & Hl & _ & ->)]; [by left|].
    destruct (decide (n' = n)) as [->|Hne].
    + by right.
    + rewrite lookup_insert_ne by done. by left.
Qed.

(** X5. Over a series of attribute accesses the resolver only adds to
    the bindings it keeps ([globals], what line 190 writes; the names the
    import system binds are not among them): every binding it started
    with is still there, with the same object, and a binding that is new
    is that of a live export the series accessed. The resolver therefore
    never binds a deprecated name or "__version__". *)
Theorem namespace_only_grows (names : list string) σ :
  globals σ ⊆ globals (accesses names σ)
  ∧ ∀ n v,
      globals (accesses names σ) !! n = Some v →
      globals σ !! n = Some v
      ∨ (n ∈ names ∧ is_Some (_lazy_imports !! n)).
Proof.
  split.
  - apply map_subseteq_spec. intros n v. apply accesses_keep_bound.
  - revert σ. induction names as [|n' names IH]; intros σ n v Hn.
    + by left.
    + destruct (IH _ _ _ Hn) as [Hn'|[Hin Hl]].
      * destruct (click_attr_new_binding _ _ _ _ Hn') as [?|[-> Hl]];
          [by left|right]. split; [by left|done].
      * right. split; [by right|done].
Qed.


(** X7. The signals of a series of accesses are those of its deprecated
    names and of "__version__", one for each such access and in the order
    of the accesses, as long as none of these names was bound before the
    series. *)
Theorem signals_of_a_series (names : list string) σ :
  (∀ n, n ∈ names →
        is_Some (_deprecated_imports !! n) ∨ n = "__version__" →
        globals σ !! n = None) →
  filter is_warn (accesses_emitted names σ) = flat_map signal_of names.
Proof.
  revert σ. induction names as [|n names IH]; intros σ Hfree; [done|].
  cbn [accesses_emitted flat_map]. rewrite filter_app. f_equal.
  - destruct (globals σ !! n) as [v|] eqn:Hg.
    + unfold click_attr. rewrite (cache_hit _ _ _ _ Hg).
      cbn [emitted filter]. unfold signal_of.
      destruct (_deprecated_imports !! n) as [[[u s] msg]|] eqn:Hd.
      { rewrite Hfree in Hg; [done|by left|by left]. }
      destruct (String.eqb_spec n "__version__") as [->|]; [|done].
      rewrite Hfree in Hg; [done|by left|by right].
    + rewrite (cache_miss _ _ Hg), getattr_signals.
      destruct (_lazy_imports !! n) as [x|] eqn:Hl; [|done].
      symmetry. apply signal_of_live. by rewrite Hl.
  - apply IH. intros n' Hin Hsig.
    apply click_attr_keeps_unbound.
    + destruct Hsig as [[x Hd]| ->].
      * by apply (deprecated_not_live _ _ Hd).
      * apply version_not_registered.
    + apply Hfree; [by right|done].
Qed.

(** With every name of the series bound, the series emits nothing and
    changes nothing. *)
Lemma accesses_of_bound_names (names : list string) σ :
  Forall (λ n, is_Some (globals σ !! n)) names →
  accesses_emitted names σ = [] ∧ accesses names σ = σ.
Proof.
  induction 1 as [|n names [v Hn] _ IH]; [done|].
  simpl. unfold click_attr. rewrite (cache_hit _ _ _ _ Hn). simpl.
  apply IH.
Qed.

(** X8. Take a series of accesses to live exports, from a namespace where
    the name [globals] is unbound, on an installation where the units of
    these exports load and have their symbols and where these loads leave
    [globals] unbound. Then the series leaves each of the names bound,
    and the same series once more emits nothing and leaves namespace and
    interpreter as they are. *)
Theorem accessed_exports_are_cached (names : list string) σ :
  (∀ n u s h,
     n ∈ names →
     _lazy_imports !! n = Some (u, s) →
     submodule "globals" h = None →
     ∃ h1 m h2 v,
       import_module u __package__ h = (h1, inr m)
       ∧ getattr m s h1 = (h2, inr v)
       ∧ submodule "globals" h2 = None) →
  namespace_lookup "globals" σ = None →
  Forall (λ n, is_Some (_lazy_imports !! n)) names →
  Forall (λ n, is_Some (globals (accesses names σ) !! n)) names
  ∧ accesses_emitted names (accesses names σ) = []
  ∧ accesses names (accesses names σ) = accesses names σ.
Proof.
  intros Hok Hfree Hlive.
  assert (Hbound : ∀ (l : list string) σ',
             l ⊆ names →
             globals σ' !! "globals" = None →
             submodule "globals" (interp σ') = None →
             Forall (λ n, is_Some (_lazy_imports !! n)) l →
             Forall (λ n, is_Some (globals (accesses l σ') !! n)) l).
  { intros l σ' Hsub Hg Hs Hl. revert σ' Hg Hs.
    induction Hl as [|n l [[u s] Hn] _ IH]; intros σ' Hg Hs; [done|].
    assert (Hstep : is_Some (globals (final (click_attr n σ')) !! n)
                    ∧ globals (final (click_attr n σ')) !! "globals" = None
                    ∧ submodule "globals" (interp (final (click_attr n σ')))
                      = None).
    { destruct (globals σ' !! n) as [v|] eqn:Hc.
      - unfold click_attr. rewrite (cache_hit _ _ _ _ Hc). simpl.
        by rewrite Hc.
      - destruct (Hok n u s (interp σ')) as (h1 & m & h2 & v & Hload
                                             & Hfetch & Hs2);
          [apply Hsub; by left|done|done|].
        rewrite (cache_miss _ _ Hc).
        rewrite (live_lookup_stores _ _ _ _ _ _ _ _ Hn Hload Hfetch);
          [|unfold namespace_lookup; simpl; by rewrite Hg].
        simpl. rewrite lookup_insert_eq. split_and!; [by eexists| |done].
        rewrite lookup_insert_ne; [done|]. intros ->.
        rewrite globals_is_no_live_export in Hn. done. }
    destruct Hstep as ([v Hv] & Hg' & Hs').
    apply List.Forall_cons.
    - exists v. by apply (accesses_keep_bound l n v).
    - apply IH; [|done|done]. intros x Hx. apply Hsub. by right. }
  assert (Hfree' : globals σ !! "globals" = None
                   ∧ submodule "globals" (interp σ) = None).
  { unfold namespace_lookup in Hfree.
    destruct (globals σ !! "globals"); [done|by split]. }
  destruct Hfree' as [Hg Hs].
  assert (Hall : Forall (λ n, is_Some (globals (accesses names σ) !! n))
                        names) by by apply Hbound.
  split; [done|]. by apply accesses_of_bound_names.
Qed.

(** X9. The resolver goes to the loader at the first access of each name,
    also when an earlier name of the series has loaded the same unit:
    for distinct names, none of them bound, the loads of the series are
    those of its names, in order. *)
Theorem loads_of_a_series (names : list string) σ :
  NoDup names →
  Forall (λ n, globals σ !! n = None) names →
  filter is_import (accesses_emitted names σ) = flat_map load_of names.
Proof.
  intros Hnd. revert σ.
  induction Hnd as [|n names Hnotin _ IH]; intros σ Hfree; [done|].
  apply Forall_cons in Hfree as [Hg Hfree].
  cbn [accesses_emitted flat_map].
  rewrite filter_app, (cache_miss _ _ Hg), getattr_loads. f_equal.
  apply IH. apply Forall_forall. intros n' Hin.
  destruct (globals (final (__getattr__ n σ)) !! n') as [v|] eqn:Hn';
    [|done].
  rewrite <- (cache_miss _ _ Hg) in Hn'.
  destruct (click_attr_new_binding _ _ _ _ Hn') as [Hb|[-> _]].
  - by rewrite (proj1 (Forall_forall _ _) Hfree n' Hin) in Hb.
  - done.
Qed.

End properties.

(** ** The theorems at work on the two installations *)

(** Unless the broken installation is named, a run is on the complete
    one. *)
#[local] Existing Instance Demo.installed.

Lemma live_lookup_raises_when_globals_is_bound_witness :
  _lazy_imports !! "get_current_context"
  = Some (".globals", "get_current_context")
  ∧ Demo.load ".globals" __package__ []
    = (["click.globals"], inr "click.globals")
  ∧ Demo.fetch "click.globals" "get_current_context" ["click.globals"]
    = (["click.globals"], inr "click.globals.get_current_context")
  ∧ namespace_lookup "globals"
      {| globals := globals Demo.fresh; interp := ["click.globals"] |}
    = Some "click.globals"
  ∧ __getattr__ (host := Demo.installed) "get_current_context" Demo.fresh
    = Run [Import ".globals" __package__;
           Getattr "click.globals" "get_current_context"]
          {| globals := globals Demo.fresh; interp := ["click.globals"] |}
          (inl (TypeError "'module' object is not callable")).
Proof.
  assert (Hn : _lazy_imports !! "get_current_context"
               = Some (".globals", "get_current_context"))
    by (vm_compute; reflexivity).
  assert (Hload : Demo.load ".globals" __package__ []
                  = (["click.globals"], inr "click.globals"))
    by (vm_compute; reflexivity).
  assert (Hfetch : Demo.fetch "click.globals" "get_current_context"
                     ["click.globals"]
                   = (["click.globals"],
                      inr "click.globals.get_current_context"))
    by (vm_compute; reflexivity).
  assert (Hbound : namespace_lookup "globals"
                     {| globals := globals Demo.fresh;
                        interp := ["click.globals"] |}
                   = Some "click.globals")
    by (vm_compute; reflexivity).
  split_and!; [exact Hn|exact Hload|exact Hfetch|exact Hbound|].
  exact (live_lookup_raises_when_globals_is_bound (host := Demo.installed)
           "get_current_context" ".globals" "get_current_context"
           Demo.fresh ["click.globals"] ["click.globals"] "click.globals"
           "click.globals.get_current_context" "click.globals"
           Hn Hload Hfetch Hbound).
Defined.

Lemma cached_export_is_stable_witness :
  _lazy_imports !! "Command" = Some (".core", "Command")
  ∧ outcome (click_attr (host := Demo.installed) "Command" Demo.fresh)
    = inr "click.core.Command"
  ∧ click_attr (host := Demo.installed) "Command"
      (accesses ["BaseCommand"; "echo"; "nonexistent_attribute"]
         (final (click_attr "Command" Demo.fresh)))
    = Run []
        (accesses ["BaseCommand"; "echo"; "nonexistent_attribute"]
           (final (click_attr "Command" Demo.fresh)))
        (inr "click.core.Command").
Proof.
  assert (Hn : _lazy_imports !! "Command" = Some (".core", "Command"))
    by (vm_compute; reflexivity).
  assert (Hv : outcome (click_attr (host := Demo.installed) "Command"
                          Demo.fresh)
               = inr "click.core.Command")
    by (vm_compute; reflexivity).
  split_and!; [exact Hn|exact Hv|].
  exact (cached_export_is_stable (host := Demo.installed)
           "Command" ".core" "Command" Demo.fresh "click.core.Command"
           Hn Hv ["BaseCommand"; "echo"; "nonexistent_attribute"]
           __getattr__).
Defined.

Lemma deprecated_lookup_witness :
  _deprecated_imports !! "BaseCommand"
  = Some (".core", "_BaseCommand",
          "'BaseCommand' is deprecated and will be removed in Click 9.0."
          +:+ " Use 'Command' instead.")
  ∧ filter is_warn
      (emitted (__getattr__ (host := Demo.installed) "BaseCommand"
                  Demo.fresh))
    = [Warn ("'BaseCommand' is deprecated and will be removed in Click 9.0."
             +:+ " Use 'Command' instead.")
            DeprecationWarning 2]
  ∧ globals (final (__getattr__ (host := Demo.installed) "BaseCommand"
                      Demo.fresh))
    = globals Demo.fresh.
Proof.
  assert (Hn : _deprecated_imports !! "BaseCommand"
               = Some (".core", "_BaseCommand",
                       "'BaseCommand' is deprecated and will be removed in Click 9.0."
                       +:+ " Use 'Command' instead."))
    by (vm_compute; reflexivity).
  pose proof (deprecated_lookup (host := Demo.installed) "BaseCommand"
                ".core" "_BaseCommand" _ Demo.fresh Hn)
    as (Hone & _ & _ & _ & Hsame & _ & _).
  split_and!; [exact Hn|exact Hone|exact Hsame].
Defined.

Lemma unresolvable_name_witness :
  globals Demo.fresh !! "nonexistent_attribute" = None
  ∧ _lazy_imports !! "nonexistent_attribute" = None
  ∧ _deprecated_imports !! "nonexistent_attribute" = None
  ∧ "nonexistent_attribute" ≠ "__version__"
  ∧ click_attr (host := Demo.installed) "nonexistent_attribute" Demo.fresh
    = Run [] Demo.fresh (inl (AttributeError "nonexistent_attribute")).
Proof.
  assert (Hg : globals Demo.fresh !! "nonexistent_attribute" = None)
    by (vm_compute; reflexivity).
  assert (Hl : _lazy_imports !! "nonexistent_attribute" = None)
    by (vm_compute; reflexivity).
  assert (Hd : _deprecated_imports !! "nonexistent_attribute" = None)
    by (vm_compute; reflexivity).
  assert (Hv : "nonexistent_attribute" ≠ "__version__") by discriminate.
  split_and!; [exact Hg|exact Hl|exact Hd|exact Hv|].
  exact (proj1 (unresolvable_name (host := Demo.installed)
                  "nonexistent_attribute" Demo.fresh Hg Hl Hd Hv)).
Defined.

Lemma version_lookup_witness :
  globals Demo.fresh !! "__version__" = None
  ∧ __getattr__ (host := Demo.installed) "__version__" Demo.fresh
    = Run [Warn version_notice DeprecationWarning 2; Version "click"]
          Demo.fresh (inr "version of click")
  ∧ click_attr (host := Demo.installed) "__version__"
      (accesses ["__version__"; "Command"] Demo.fresh)
    = __getattr__ "__version__"
        (accesses ["__version__"; "Command"] Demo.fresh).
Proof.
  assert (Hg : globals Demo.fresh !! "__version__" = None)
    by (vm_compute; reflexivity).
  pose proof (version_lookup (host := Demo.installed) Demo.fresh)
    as (_ & _ & Hrun & _ & _ & Hagain).
  split_and!; [exact Hg|exact Hrun|].
  exact (Hagain Hg ["__version__"; "Command"]).
Defined.

Lemma load_failure_propagates_witness :
  _lazy_imports !! "Command" = Some (".core", "Command")
  ∧ import_module (Host := Demo.broken) ".core" __package__
      (interp Demo.fresh)
    = ([], inl (ModuleNotFoundError "click.core"))
  ∧ outcome (__getattr__ (host := Demo.broken) "Command" Demo.fresh)
    = inl (ModuleNotFoundError "click.core")
  ∧ filter is_host_call
      (emitted (__getattr__ (host := Demo.broken) "Command" Demo.fresh))
    = [Import ".core" __package__]
  ∧ globals (final (__getattr__ (host := Demo.broken) "Command"
                      Demo.fresh))
    = globals Demo.fresh.
Proof.
  assert (Hn : _lazy_imports !! "Command" = Some (".core", "Command"))
    by (vm_compute; reflexivity).
  assert (Hload : import_module (Host := Demo.broken) ".core" __package__
                    (interp Demo.fresh)
                  = ([], inl (ModuleNotFoundError "click.core")))
    by (vm_compute; reflexivity).
  pose proof (load_failure_propagates (host := Demo.broken)
                "Command" ".core" "Command" Demo.fresh []
                (ModuleNotFoundError "click.core") (or_introl Hn) Hload)
    as (Hout & Hcalls & Hsame & _).
  split_and!; [exact Hn|exact Hload|exact Hout|exact Hcalls|exact Hsame].
Defined.

Lemma signals_point_at_consumer_witness :
  is_Some (_deprecated_imports !! "MultiCommand")
  ∧ ∃ message,
      filter is_warn
        (emitted (__getattr__ (host := Demo.installed) "MultiCommand"
                    Demo.fresh))
      = [Warn message DeprecationWarning 2].
Proof.
  assert (Hn : is_Some (_deprecated_imports !! "MultiCommand"))
    by (vm_compute; eexists; reflexivity).
  split; [exact Hn|].
  exact (proj2 (signals_point_at_consumer (host := Demo.installed)
                  "MultiCommand" Demo.fresh) (or_introl Hn)).
Defined.

Lemma deprecation_signal_precedes_load_witness :
  _deprecated_imports !! "OptionParser"
  = Some (".parser", "_OptionParser",
          "'OptionParser' is deprecated and will be removed in Click 9.0."
          +:+ " The old parser is available in 'optparse'.")
  ∧ import_module (Host := Demo.broken) ".parser" __package__
      (interp Demo.fresh)
    = ([], inl (ModuleNotFoundError "click.parser"))
  ∧ __getattr__ (host := Demo.broken) "OptionParser" Demo.fresh
    = Run [Warn ("'OptionParser' is deprecated and will be removed in Click 9.0."
                 +:+ " The old parser is available in 'optparse'.")
                DeprecationWarning 2;
           Import ".parser" __package__]
          {| globals := globals Demo.fresh; interp := [] |}
          (inl (ModuleNotFoundError "click.parser")).
Proof.
  assert (Hn : _deprecated_imports !! "OptionParser"
               = Some (".parser", "_OptionParser",
                       "'OptionParser' is deprecated and will be removed in Click 9.0."
                       +:+ " The old parser is available in 'optparse'."))
    by (vm_compute; reflexivity).
  assert (Hload : import_module (Host := Demo.broken) ".parser" __package__
                    (interp Demo.fresh)
                  = ([], inl (ModuleNotFoundError "click.parser")))
    by (vm_compute; reflexivity).
  split_and!; [exact Hn|exact Hload|].
  exact (proj2 (deprecation_signal_precedes_load (host := Demo.broken)
                  "OptionParser" ".parser" "_OptionParser" _ Demo.fresh Hn)
               [] (ModuleNotFoundError "click.parser") Hload).
Defined.

(** ** The further properties at work *)

(** The complete installation has every unit of the live table, and its
    units have every symbol; loading a unit other than [.globals] leaves
    the name [globals] as it was in the package. *)
Lemma installed_is_reliable (n u s : string) (h : list string) :
  _lazy_imports !! n = Some (u, s) →
  u ≠ ".globals" →
  submodule (Host := Demo.installed) "globals" h = None →
  ∃ h1 m h2 v,
    import_module (Host := Demo.installed) u __package__ h = (h1, inr m)
    ∧ getattr (Host := Demo.installed) m s h1 = (h2, inr v)
    ∧ submodule (Host := Demo.installed) "globals" h2 = None.
Proof.
  intros Hn Hu Hfree.
  assert (Hunit : u ∈ Demo.units).
  { apply (dict_lookup_Forall (λ kv, kv.2.1 ∈ Demo.units)
             _lazy_imports_items n (u, s)); [|done].
    decide_by_running. }
  cbn [import_module getattr submodule Demo.installed] in *.
  unfold Demo.load, Demo.fetch.
  rewrite (bool_decide_eq_true_2 _ Hunit).
  eexists _, _, _, _. split_and!; [reflexivity|reflexivity|].
  case_bool_decide as Hloaded; [done|].
  unfold Demo.bound in *. case_bool_decide as Hg; [done|].
  rewrite bool_decide_eq_false_2; [done|].
  intros [Hin|Hin%list_elem_of_singleton]%elem_of_app; [done|].
  apply Hu. by injection Hin.
Qed.

(** So are the units of a series that stays clear of [.globals]. *)
Lemma series_is_reliable (n u s : string) (h : list string) :
  n ∈ ["Command"; "echo"; "Command"] →
  _lazy_imports !! n = Some (u, s) →
  submodule (Host := Demo.installed) "globals" h = None →
  ∃ h1 m h2 v,
    import_module (Host := Demo.installed) u __package__ h = (h1, inr m)
    ∧ getattr (Host := Demo.installed) m s h1 = (h2, inr v)
    ∧ submodule (Host := Demo.installed) "globals" h2 = None.
Proof.
  intros Hin Hn. apply (installed_is_reliable n u s h Hn).
  repeat (apply elem_of_cons in Hin as [->|Hin];
          [vm_compute in Hn; by simplify_eq|]).
  by apply elem_of_nil in Hin.
Qed.

Lemma live_entry_shape_witness :
  _lazy_imports !! "echo" = Some (".utils", "echo")
  ∧ "echo" = "echo" ∧ String.prefix "." ".utils" = true.
Proof.
  assert (Hn : _lazy_imports !! "echo" = Some (".utils", "echo"))
    by (vm_compute; reflexivity).
  split; [exact Hn|].
  exact (live_entry_shape "echo" ".utils" "echo" Hn).
Defined.

Lemma deprecated_entry_shape_witness :
  _deprecated_imports !! "MultiCommand"
  = Some (".core", "_MultiCommand",
          "'MultiCommand' is deprecated and will be removed in Click 9.0."
          +:+ " Use 'Group' instead.")
  ∧ "_MultiCommand" = "_" +:+ "MultiCommand".
Proof.
  assert (Hn : _deprecated_imports !! "MultiCommand"
               = Some (".core", "_MultiCommand",
                       "'MultiCommand' is deprecated and will be removed in Click 9.0."
                       +:+ " Use 'Group' instead."))
    by (vm_compute; reflexivity).
  split; [exact Hn|].
  exact (proj1 (deprecated_entry_shape "MultiCommand" ".core"
                  "_MultiCommand" _ Hn)).
Defined.

Lemma symbol_mismatch_propagates_witness :
  _lazy_imports !! "Command" = Some (".core", "Command")
  ∧ import_module (Host := Demo.drifted) ".core" __package__
      (interp Demo.fresh)
    = (["click.core"], inr "click.core")
  ∧ getattr (Host := Demo.drifted) "click.core" "Command" ["click.core"]
    = (["click.core"], inl (AttributeError "Command"))
  ∧ outcome (__getattr__ (host := Demo.drifted) "Command" Demo.fresh)
    = inl (AttributeError "Command")
  ∧ final (__getattr__ (host := Demo.drifted) "Command" Demo.fresh)
    = {| globals := globals Demo.fresh; interp := ["click.core"] |}.
Proof.
  assert (Hn : _lazy_imports !! "Command" = Some (".core", "Command"))
    by (vm_compute; reflexivity).
  assert (Hload : import_module (Host := Demo.drifted) ".core" __package__
                    (interp Demo.fresh)
                  = (["click.core"], inr "click.core"))
    by (vm_compute; reflexivity).
  assert (Hfetch : getattr (Host := Demo.drifted) "click.core" "Command"
                     ["click.core"]
                   = (["click.core"], inl (AttributeError "Command")))
    by (vm_compute; reflexivity).
  pose proof (symbol_mismatch_propagates (host := Demo.drifted)
                "Command" ".core" "Command" Demo.fresh
                ["click.core"] ["click.core"] "click.core"
                (AttributeError "Command") (or_introl Hn) Hload Hfetch)
    as (Hout & _ & Hfinal).
  split_and!; [exact Hn|exact Hload|exact Hfetch|exact Hout|exact Hfinal].
Defined.

Lemma returned_value_was_fetched_witness :
  _lazy_imports !! "Group" = Some (".core", "Group")
  ∧ outcome (__getattr__ "Group" Demo.fresh) = inr "click.core.Group"
  ∧ ∃ h1 m h2,
      import_module ".core" __package__ (interp Demo.fresh) = (h1, inr m)
      ∧ getattr m "Group" h1 = (h2, inr "click.core.Group")
      ∧ interp (final (__getattr__ "Group" Demo.fresh)) = h2.
Proof.
  assert (Hn : _lazy_imports !! "Group" = Some (".core", "Group"))
    by (vm_compute; reflexivity).
  assert (Hv : outcome (__getattr__ "Group" Demo.fresh)
               = inr "click.core.Group")
    by (vm_compute; reflexivity).
  split_and!; [exact Hn|exact Hv|].
  exact (returned_value_was_fetched "Group" ".core" "Group" Demo.fresh
           "click.core.Group" (or_introl Hn) Hv).
Defined.

Lemma namespace_only_grows_witness :
  globals (accesses ["Command"; "BaseCommand"] Demo.fresh) !! "Command"
  = Some "click.core.Command"
  ∧ (globals Demo.fresh !! "Command" = Some "click.core.Command"
     ∨ ("Command" ∈ ["Command"; "BaseCommand"]
        ∧ is_Some (_lazy_imports !! "Command"))).
Proof.
  assert (Hb : globals (accesses ["Command"; "BaseCommand"] Demo.fresh)
               !! "Command" = Some "click.core.Command")
    by (vm_compute; reflexivity).
  split; [exact Hb|].
  exact (proj2 (namespace_only_grows ["Command"; "BaseCommand"] Demo.fresh)
           "Command" "click.core.Command" Hb).
Defined.


Lemma signals_of_a_series_witness :
  (∀ n, n ∈ ["BaseCommand"; "Command"; "BaseCommand"; "__version__"] →
        is_Some (_deprecated_imports !! n) ∨ n = "__version__" →
        globals Demo.fresh !! n = None)
  ∧ filter is_warn
      (accesses_emitted
         ["BaseCommand"; "Command"; "BaseCommand"; "__version__"]
         Demo.fresh)
    = flat_map signal_of
        ["BaseCommand"; "Command"; "BaseCommand"; "__version__"]
  ∧ length
      (flat_map (signal_of (obj := string))
         ["BaseCommand"; "Command"; "BaseCommand"; "__version__"])
    = 3.
Proof.
  assert (Hfree : ∀ n,
             n ∈ ["BaseCommand"; "Command"; "BaseCommand"; "__version__"] →
             is_Some (_deprecated_imports !! n) ∨ n = "__version__" →
             globals Demo.fresh !! n = None)
    by (intros n _ _; apply lookup_empty).
  split_and!; [exact Hfree| |vm_compute; reflexivity].
  exact (signals_of_a_series
           ["BaseCommand"; "Command"; "BaseCommand"; "__version__"]
           Demo.fresh Hfree).
Defined.

Lemma accessed_exports_are_cached_witness :
  namespace_lookup (host := Demo.installed) "globals" Demo.fresh = None
  ∧ Forall (λ n, is_Some (_lazy_imports !! n)) ["Command"; "echo"; "Command"]
  ∧ accesses_emitted ["Command"; "echo"; "Command"]
      (accesses ["Command"; "echo"; "Command"] Demo.fresh)
    = [].
Proof.
  assert (Hfree : namespace_lookup (host := Demo.installed) "globals"
                    Demo.fresh = None)
    by (vm_compute; reflexivity).
  assert (Hlive : Forall (λ n, is_Some (_lazy_imports !! n))
                         ["Command"; "echo"; "Command"])
    by (repeat (apply List.Forall_cons;
                [vm_compute; eexists; reflexivity|]);
        apply List.Forall_nil).
  split_and!; [exact Hfree|exact Hlive|].
  exact (proj1 (proj2 (accessed_exports_are_cached
                         ["Command"; "echo"; "Command"] Demo.fresh
                         (λ n u s h, series_is_reliable n u s h)
                         Hfree Hlive))).
Defined.

Lemma loads_of_a_series_witness :
  NoDup ["Command"; "Group"; "BaseCommand"]
  ∧ Forall (λ n, globals Demo.fresh !! n = None)
      ["Command"; "Group"; "BaseCommand"]
  ∧ filter is_import
      (accesses_emitted ["Command"; "Group"; "BaseCommand"] Demo.fresh)
    = [Import ".core" __package__; Import ".core" __package__;
       Import ".core" __package__].
Proof.
  assert (Hnd : NoDup ["Command"; "Group"; "BaseCommand"])
    by decide_by_running.
  assert (Hfree : Forall (λ n, globals Demo.fresh !! n = None)
                         ["Command"; "Group"; "BaseCommand"])
    by (repeat (apply List.Forall_cons; [apply lookup_empty|]);
        apply List.Forall_nil).
  assert (Hloads : flat_map (load_of (obj := string))
                     ["Command"; "Group"; "BaseCommand"]
                   = [Import ".core" __package__;
                      Import ".core" __package__;
                      Import ".core" __package__])
    by (vm_compute; reflexivity).
  split_and!; [exact Hnd|exact Hfree|].
  rewrite <- Hloads.
  exact (loads_of_a_series ["Command"; "Group"; "BaseCommand"] Demo.fresh
           Hnd Hfree).
Defined.
